(** * The FID codec of nmr-process: [read_fid] and [export_fid]

    A shallow embedding of [src/process.py].  The two functions of the
    module are modelled over
    - a file system: a finite map from paths to byte strings,
    - Python exceptions as the error type of a result,
    - an arithmetic interface standing for Python/NumPy floating point,
      instantiated with IEEE binary64 (the kernel's primitive floats),
    - float32 array cells as their 32-bit patterns ([np.frombuffer] is a
      reinterpreting view: it never computes on the cells). *)

From Stdlib Require Import ZArith Ascii.
From Stdlib Require Import Floats.
From Stdlib Require DecimalString.
From stdpp Require Import gmap strings list fin_maps.

Local Open Scope Z_scope.

(** ** Python exceptions *)

Inductive exn : Type :=
| FileNotFoundError (msg : string)
| ValueError (msg : string)
| ZeroDivisionError.

Inductive result (A : Type) : Type :=
| Ok (a : A)
| Raise (e : exn).
Arguments Ok {A} a.
Arguments Raise {A} e.

#[export] Instance result_bind : MBind result := λ A B k r,
  match r with
  | Ok a => k a
  | Raise e => Raise e
  end.

(** ** Arithmetic interface

    The operations [read_fid] and [np.linspace] perform on Python floats.
    [of_nat] is the conversion of a Python int (a length, an index). *)

Class Arith (F : Type) := {
  of_nat : nat → F;
  fadd : F → F → F;
  fsub : F → F → F;
  fmul : F → F → F;
  fdiv : F → F → F;
  feqb : F → F → bool
}.

(** IEEE binary64: Python's [float] and NumPy's [float64]. *)
#[export] Instance binary64 : Arith float := {|
  of_nat n := PrimFloat.of_uint63 (Uint63.of_Z (Z.of_nat n));
  fadd := PrimFloat.add;
  fsub := PrimFloat.sub;
  fmul := PrimFloat.mul;
  fdiv := PrimFloat.div;
  feqb := PrimFloat.eqb
|}.

(** ** NumPy and pandas primitives used by the module *)

Definition byte_val (a : ascii) : Z := Z.of_N (N_of_ascii a).

(** One little-endian 32-bit word from four bytes. *)
Definition le32 (b0 b1 b2 b3 : ascii) : Z :=
  Z.lor (byte_val b0)
    (Z.lor (Z.shiftl (byte_val b1) 8)
       (Z.lor (Z.shiftl (byte_val b2) 16) (Z.shiftl (byte_val b3) 24))).

(** The cells of the view [np.frombuffer(raw, "<f")]: the buffer cut into
    4-byte little-endian words. *)
Fixpoint words (raw : string) : list Z :=
  match raw with
  | String b0 (String b1 (String b2 (String b3 rest))) =>
      le32 b0 b1 b2 b3 :: words rest
  | _ => []
  end.

(** [np.frombuffer(raw, "<f")] refuses a buffer that is not a whole number
    of elements. *)
Definition frombuffer (raw : string) : result (list Z) :=
  if decide (String.length raw mod 4 = 0)%nat then Ok (words raw)
  else Raise (ValueError "buffer size must be a multiple of element size").

(** The slice [a[::2]]. *)
Fixpoint step2 {A} (a : list A) : list A :=
  match a with
  | [] => []
  | x :: rest => x :: match rest with [] => [] | _ :: rest' => step2 rest' end
  end.

(** [y[-1] = v] on a non-empty array. *)
Definition set_last {A} (y : list A) (v : A) : list A :=
  <[pred (length y) := v]> y.

Section Numeric.
Context {F : Type} `{Arith F}.

(** [np.linspace(start, stop, num)] with the default [endpoint=True]. *)
Definition linspace (start stop : F) (num : nat) : list F :=
  let div := pred num in
  let delta := fsub stop start in
  let y := of_nat <$> seq 0 num in
  let y :=
    if decide (0 < div)%nat then
      let step := fdiv delta (of_nat div) in
      if feqb step (of_nat 0)
      then (λ v, fmul (fdiv v (of_nat div)) delta) <$> y
      else (λ v, fmul v step) <$> y
    else (λ v, fmul v delta) <$> y in
  let y := (λ v, fadd v start) <$> y in
  if decide (1 < num)%nat then set_last y stop else y.

(** The dictionary of columns and the frame built from it. *)
Record DataFrame : Type := {
  xaxis : list F;
  real : list Z;
  imag : list Z
}.

(** [pd.DataFrame(data_dict)] on a dictionary of three arrays. *)
Definition pd_DataFrame (data_dict : DataFrame) : result DataFrame :=
  if decide (length (xaxis data_dict) = length (real data_dict)
             ∧ length (real data_dict) = length (imag data_dict))
  then Ok data_dict
  else Raise (ValueError "All arrays must be of the same length").

(** ** read_fid *)

(** [x / sw] on Python floats. *)
Definition py_div (x sw : F) : result F :=
  if feqb sw (of_nat 0) then Raise ZeroDivisionError
  else Ok (fdiv x sw).

(** [data_points = len(fid_data) / 2] is a float; [int(data_points)] is
    the integer quotient, half of a length being exactly representable. *)
Definition read_fid (fs : gmap string string) (fid_path : string) (sw : F)
  : result DataFrame :=
  match fs !! fid_path with
  | None => Raise (FileNotFoundError ("FID file not found: " +:+ fid_path))
  | Some raw_data =>
      raw_data ← frombuffer raw_data;
      let fid_data := drop 259 raw_data in
      let data_points := fdiv (of_nat (length fid_data)) (of_nat 2) in
      time ← py_div (fsub data_points (of_nat 1)) sw;
      let xs := linspace (of_nat 0) time (length fid_data / 2) in
      pd_DataFrame {| xaxis := xs;
                      real := step2 fid_data;
                      imag := step2 (drop 1 fid_data) |}
  end.

End Numeric.

Arguments DataFrame F : clear implicits.

(** ** File-system effects

    The calls of [export_fid] that touch the file system, one constructor
    per effect, and what each does to the map from paths to contents. *)

Inductive io : Type :=
| Remove (path : string)                 (* os.remove(path) *)
| OpenW (path : string)                  (* open(path, 'w'): create or truncate *)
| OpenA (path : string)                  (* open(path, 'a'): create, keep content *)
| Write (path : string) (text : string). (* write at the end of the open file *)

Definition exec (fs : gmap string string) (a : io) : gmap string string :=
  match a with
  | Remove path => delete path fs
  | OpenW path => <[path := ""]> fs
  | OpenA path => match fs !! path with Some _ => fs | None => <[path := ""]> fs end
  | Write path text => alter (λ content, content +:+ text) path fs
  end.

(** The file system once every step has been performed. *)
Definition run (fs : gmap string string) (steps : list io) : gmap string string :=
  foldl exec fs steps.

(** The file system left behind when step number [k] (from 0) raises: the
    steps before it have been performed, no later one is. *)
Definition interrupted (fs : gmap string string) (steps : list io) (k : nat)
  : gmap string string :=
  run fs (take k steps).

(** The text a step adds at the end of the file it writes to. *)
Definition appended (a : io) : string :=
  match a with
  | Write _ text => text
  | _ => ""
  end.

(** A step that can only add to the end of the file at [path]. *)
Definition appends_to (path : string) (a : io) : Prop :=
  match a with
  | Write path' _ | OpenA path' => path' = path
  | _ => False
  end.

Definition concat_text (texts : list string) : string :=
  foldr String.append "" texts.

(** ** Reading text back *)

(** Python's [text.split(sep)] for a one-character separator. *)
Fixpoint split_on (sep : ascii) (text : string) : list string :=
  match text with
  | EmptyString => [""]
  | String c rest =>
      if Ascii.eqb c sep then "" :: split_on sep rest
      else match split_on sep rest with
           | l :: ls => String c l :: ls
           | [] => [String c ""]
           end
  end.

Fixpoint occurs (c : ascii) (text : string) : bool :=
  match text with
  | EmptyString => false
  | String c' rest => Ascii.eqb c' c || occurs c rest
  end.

Definition lines (text : string) : list string := split_on (ascii_of_nat 10) text.
Definition fields (line : string) : list string := split_on (ascii_of_nat 9) line.

(** A rendered number that can be told apart from the separators. *)
Definition clean (text : string) : bool :=
  negb (occurs (ascii_of_nat 9) text) && negb (occurs (ascii_of_nat 10) text).

(** ** Text rendering *)

Definition TAB : string := String (ascii_of_nat 9) "".
Definition NL : string := String (ascii_of_nat 10) "".

(** How numbers are turned into text: [repr] is the f-string rendering
    [f'{freq}'], [cell64] and [cell32] are what [DataFrame.to_csv] prints
    for a float64 and for a float32 cell (given by its bit pattern). *)
Class Render (F : Type) := {
  repr : F → string;
  cell64 : F → string;
  cell32 : Z → string
}.

Section Encoder.
Context {F : Type} `{Render F}.

(** The rows of a frame, in index order. *)
Definition rows (data : DataFrame F) : list (F * Z * Z) :=
  zip (zip (xaxis data) (real data)) (imag data).

(** One record of [to_csv(sep='\t', header=None, index=False)], without
    its line terminator. *)
Definition csv_record (row : F * Z * Z) : string :=
  cell64 row.1.1 +:+ TAB +:+ cell32 row.1.2 +:+ TAB +:+ cell32 row.2.

(** The cells of a row are told apart from the separators. *)
Definition clean_row (row : F * Z * Z) : Prop :=
  clean (cell64 row.1.1) = true
  ∧ clean (cell32 row.1.2) = true
  ∧ clean (cell32 row.2) = true.

(** [data.to_csv(path, sep='\t', header=None, index=False, mode='a')]. *)
Definition to_csv (data : DataFrame F) (path : string) : list io :=
  OpenA path :: ((λ row, Write path (csv_record row +:+ NL)) <$> rows data).

(** ** export_fid *)

(** The two writes of the file header, after [open(fid_path, 'w')]. *)
Definition header_writes (fid_path : string) (freq : F) : list io :=
  [Write fid_path ("Frequency" +:+ TAB +:+ repr freq +:+ NL);
   Write fid_path ("Nucleus" +:+ TAB +:+ "Unknown" +:+ NL)].

Definition export_fid_steps (fs : gmap string string) (data : DataFrame F)
    (fid_path : string) (freq : F) : list io :=
  (if decide (is_Some (fs !! fid_path)) then [Remove fid_path] else [])
  ++ OpenW fid_path :: header_writes fid_path freq
  ++ to_csv data fid_path.

Definition export_fid (fs : gmap string string) (data : DataFrame F)
    (fid_path : string) (freq : F) : gmap string string :=
  run fs (export_fid_steps fs data fid_path freq).

(** ** The encoder as the specification words it

    The export record and the text document of the specification's
    encoder: a frequency line, a nucleus line carrying the record's
    label, one tab-separated line per sample; every line is closed by a
    newline.  It is compared below with what [export_fid] writes. *)

Record ExportRecord : Type := {
  frequency_mhz : F;
  nucleus_label : string
}.

Definition unlines (ls : list string) : string :=
  foldr (λ l acc, l +:+ NL +:+ acc) "" ls.

Definition spec_encode (signal : DataFrame F) (record : ExportRecord) : string :=
  unlines (("Frequency" +:+ TAB +:+ repr (frequency_mhz record))
           :: ("Nucleus" +:+ TAB +:+ nucleus_label record)
           :: (csv_record <$> rows signal)).

(** The only way a caller holding an export record can invoke
    [export_fid]: the frequency is passed on, the function has no
    parameter for the label. *)
Definition export_record (fs : gmap string string) (signal : DataFrame F)
    (fid_path : string) (record : ExportRecord) : gmap string string :=
  export_fid fs signal fid_path (frequency_mhz record).

End Encoder.

Arguments ExportRecord F : clear implicits.

(** ** IEEE interpretation of the cells, and a decimal rendering *)

(** The value of a float32 cell, as the binary64 number it converts to
    (the conversion is exact). *)
Definition f32_value (w : Z) : float :=
  let e := Z.land (Z.shiftr w 23) 255 in
  let m := Z.land w (2 ^ 23 - 1) in
  let magnitude :=
    if e =? 255 then (if m =? 0 then infinity else nan)
    else if e =? 0 then Z.ldexp (PrimFloat.of_uint63 (Uint63.of_Z m)) (-149)
    else Z.ldexp (PrimFloat.of_uint63 (Uint63.of_Z (m + 2 ^ 23))) (e - 150) in
  if Z.testbit w 31 then PrimFloat.opp magnitude else magnitude.

Definition digits (n : Z) : string :=
  DecimalString.NilZero.string_of_uint (N.to_uint (Z.to_N n)).

(** Drop the zeros at the end of a fractional part, keeping one digit. *)
Fixpoint strip_zeros (s : string) : string :=
  match s with
  | EmptyString => ""
  | String c rest =>
      match strip_zeros rest with
      | EmptyString => if Ascii.eqb c "0" then "" else String c ""
      | rest' => String c rest'
      end
  end.

Definition pad_zeros (width : nat) (s : string) : string :=
  String.string_of_list_ascii (replicate (width - String.length s) "0"%char) +:+ s.

(** The exact decimal expansion of a binary64 number: a deterministic,
    lossless rendering that agrees with Python's on numbers such as
    [0.5], [1.0] or [56.25]. *)
Definition decimal (x : float) : string :=
  match Prim2SF x with
  | S754_zero s => if s then "-0.0" else "0.0"
  | S754_infinity s => if s then "-inf" else "inf"
  | S754_nan => "nan"
  | S754_finite s m e =>
      let sign := if s then "-" else "" in
      if 0 <=? e then sign +:+ digits (Z.pos m * 2 ^ e) +:+ ".0"
      else
        let d := 2 ^ (- e) in
        let frac := strip_zeros (pad_zeros (Z.to_nat (- e))
                                   (digits ((Z.pos m mod d) * 5 ^ (- e)))) in
        sign +:+ digits (Z.pos m / d) +:+ "."
        +:+ (match frac with EmptyString => "0" | _ => frac end)
  end.

#[export] Instance render_decimal : Render float := {|
  repr := decimal;
  cell64 := decimal;
  cell32 w := decimal (f32_value w)
|}.

(** ** Example data *)

(** The 1036 zero bytes of an empty header. *)
Definition zero_header : string :=
  String.string_of_list_ascii (replicate 1036 (ascii_of_nat 0)).

(** The little-endian bytes of a 32-bit word. *)
Definition le_bytes (w : Z) : string :=
  String.string_of_list_ascii
    ((λ k, ascii_of_N (Z.to_N (Z.land (Z.shiftr w (8 * k)) 255))) <$> [0; 1; 2; 3]).

(** The float32 patterns of 1.0, 2.0, 3.0 and 4.0. *)
Definition one_to_four : list Z := [0x3F800000; 0x40000000; 0x40400000; 0x40800000].

Definition payload_bytes (ws : list Z) : string :=
  foldr (λ w acc, le_bytes w +:+ acc) "" ws.

Definition disk : gmap string string :=
  {[ "scenario.fid" := zero_header +:+ payload_bytes one_to_four;
     "empty.fid" := "";
     "header.fid" := zero_header;
     "odd.fid" := zero_header +:+ payload_bytes (take 3 one_to_four);
     "ragged.fid" := zero_header +:+ "abc";
     "old.txt" := "stale content that is longer than the new export will ever be, by far" ]}%string.

(** An export record whose label is not the default one. *)
Definition proton_record : ExportRecord float :=
  {| frequency_mhz := 56.25%float; nucleus_label := "1H" |}.

Definition scenario : DataFrame float :=
  {| xaxis := [0; 0.5]%float;
     real := [0x3F800000; 0x40400000];
     imag := [0x40000000; 0x40800000] |}.

(** ** The files a step acts on, and more example data *)

(** The file a step acts on. *)
Definition target (a : io) : string :=
  match a with
  | Remove path | OpenW path | OpenA path | Write path _ => path
  end.

(** A header of 1036 bytes that are not zero. *)
Definition ones_header : string :=
  String.string_of_list_ascii (replicate 1036 (ascii_of_nat 255)).

Definition other_disk : gmap string string :=
  {[ "copy.fid" := ones_header +:+ payload_bytes one_to_four ]}.

(** ** build_file_name (utils/file.py) *)

(** The exception of an out-of-range subscript. *)
Inductive index_error : Type :=
| IndexError (msg : string).

(** [s.replace(c, "")] for a one-character [c]. *)
Fixpoint remove_char (c : ascii) (s : string) : string :=
  match s with
  | EmptyString => ""
  | String c' rest =>
      if Ascii.eqb c' c then remove_char c rest
      else String c' (remove_char c rest)
  end.

(** The slice [s[:n]]. *)
Fixpoint str_take (n : nat) (s : string) : string :=
  match n, s with
  | S n', String c rest => String c (str_take n' rest)
  | _, _ => ""
  end.

(** The slice [s[:-4]]: everything but the last four characters, nothing
    when there are at most four. *)
Definition chop4 (s : string) : string :=
  str_take (String.length s - 4) s.

(** [sep.join(parts)]. *)
Fixpoint join (sep : string) (parts : list string) : string :=
  match parts with
  | [] => ""
  | [x] => x
  | x :: rest => x +:+ sep +:+ join sep rest
  end.

Definition build_file_name (src_path : string) : index_error + string :=
  let path_parts := split_on "/" src_path in
  match path_parts !! 5%nat with
  | None => inl (IndexError "list index out of range")
  | Some part5 =>
      let date_part := remove_char "." part5 in
      let file_name :=
        join "-" (take 1 (drop 4 path_parts) ++ [date_part]
                  ++ take 2 (drop 6 path_parts)
                  ++ [chop4 (default "" (last path_parts))]) in
      inr (file_name +:+ ".fid")
  end.

(** The number of occurrences of a character. *)
Fixpoint count_char (c : ascii) (s : string) : nat :=
  match s with
  | EmptyString => 0
  | String c' rest => (if Ascii.eqb c' c then 1 else 0) + count_char c rest
  end.

(** The path of the example in the source. *)
Definition sabre_path : string :=
  "D:/study/SABRE/20240117/7-900uM-SABRE-90/2024.01.17/5/average/fid/avg3.fid".

(** ** scan_folder (utils/file.py) *)

(** A directory, as [os.walk] sees it: its sub-directories by name, in
    the order the system lists them, and the names of its other entries.
    There are no symbolic links. *)
#[local] Unset Elimination Schemes.
Inductive folder : Type :=
| Folder (dirs : list (string * folder)) (files : list string).
#[local] Set Elimination Schemes.

(** [os.path.join(a, b)] on POSIX paths. *)
Definition os_path_join (a b : string) : string :=
  if String.prefix "/" b then b
  else if decide (a = "") then b
  else if decide (String.substring (String.length a - 1) 1 a = "/")
       then a +:+ b
       else a +:+ "/" +:+ b.

(** [os.walk(top)], top-down: the triple of the directory itself, then
    the walks of its sub-directories in order. *)
Fixpoint os_walk (top : string) (t : folder)
  : list (string * list string * list string) :=
  match t with
  | Folder dirs files =>
      (top, dirs.*1, files)
      :: flat_map (λ entry, let '(name, sub) := entry in
                            os_walk (os_path_join top name) sub) dirs
  end.

(** [found] is the directory at [folder_path], if there is one: walking
    a path that is no directory yields nothing. *)
Definition scan_folder (found : option folder) (folder_path : string)
    (scan_sub : bool) : list string :=
  match found with
  | None => []
  | Some t =>
      let visited := if scan_sub then os_walk folder_path t
                     else take 1 (os_walk folder_path t) in
      flat_map (λ triple, os_path_join triple.1.1 <$> triple.1.2) visited
  end.

(** The number of directories below a directory, at any depth. *)
Fixpoint count_below (t : folder) : nat :=
  match t with
  | Folder dirs _ =>
      foldr (λ entry acc,
               let '(_, sub) := entry in (S (count_below sub) + acc)%nat)
            0%nat dirs
  end.

(** Names as a file system has them: not empty, without slash. *)
Fixpoint named (t : folder) : Prop :=
  match t with
  | Folder dirs _ =>
      foldr (λ entry acc,
               let '(name, sub) := entry in
               (name ≠ "" ∧ occurs "/" name = false ∧ named sub) ∧ acc)
            True dirs
  end.

(** The layout of the example in the source, under [D:/study/SABRE]. *)
Definition sabre_tree : folder :=
  Folder [("20240117",
           Folder [("7-900uM-SABRE-90",
                    Folder [("2024.01.17",
                             Folder [("5",
                                      Folder [("average",
                                               Folder [("fid", Folder [] ["avg3.fid"])] [])]
                                             [])] [])] []);
                   ("8-blank", Folder [] [])] ["notes.txt"]);
          ("20240118", Folder [] [])] [].



(** * Properties *)

(** ** Arrays and slices *)

Lemma words_length (raw : string) :
  length (words raw) = (String.length raw / 4)%nat.
Proof.
  remember (String.length raw) as n eqn:Hn.
  revert raw Hn. induction n as [n IH] using lt_wf_ind. intros raw Hn.
  destruct raw as [|b0 [|b1 [|b2 [|b3 rest]]]]; simpl in Hn; subst n;
    try reflexivity.
  cbn [words length]. rewrite (IH (String.length rest)) by (lia || reflexivity).
  change (S (S (S (S (String.length rest)))))
    with (1 * 4 + String.length rest)%nat.
  rewrite Nat.div_add_l by lia. reflexivity.
Qed.

Lemma step2_pair {A} (x y : A) (a : list A) :
  step2 (x :: y :: a) = x :: step2 a.
Proof. reflexivity. Qed.

Lemma list_ind2 {A} (P : list A → Prop) :
  P [] → (∀ x, P [x]) → (∀ x y a, P a → P (x :: y :: a)) → ∀ a, P a.
Proof.
  intros H0 H1 H2.
  assert (∀ a, P a ∧ ∀ x, P (x :: a)) as Hboth.
  { induction a as [|y a [IHa IHxa]]; split; auto. }
  intros a. apply Hboth.
Qed.

Lemma step2_length {A} (a : list A) :
  length (step2 a) = ((length a + 1) / 2)%nat.
Proof.
  induction a as [| x | x y a IH] using list_ind2; try reflexivity.
  rewrite step2_pair. cbn [length]. rewrite IH.
  replace (S (S (length a)) + 1)%nat with (1 * 2 + (length a + 1))%nat by lia.
  rewrite Nat.div_add_l by lia. reflexivity.
Qed.

Lemma step2_tail_length {A} (a : list A) :
  length (step2 (drop 1 a)) = (length a / 2)%nat.
Proof.
  rewrite step2_length, length_drop.
  destruct a as [|x a]; [reflexivity|]. cbn [length].
  f_equal. lia.
Qed.

Lemma step2_lookup {A} (a : list A) (k : nat) :
  step2 a !! k = a !! (2 * k)%nat.
Proof.
  revert k. induction a as [| x | x y a IH] using list_ind2; intros k.
  - reflexivity.
  - destruct k as [|k]; [reflexivity|].
    replace (2 * S k)%nat with (S (S (2 * k))) by lia. reflexivity.
  - rewrite step2_pair. destruct k as [|k]; [reflexivity|].
    replace (2 * S k)%nat with (S (S (2 * k))) by lia. cbn. apply IH.
Qed.

Lemma step2_tail_lookup {A} (a : list A) (k : nat) :
  step2 (drop 1 a) !! k = a !! (2 * k + 1)%nat.
Proof.
  rewrite step2_lookup, lookup_drop. f_equal. lia.
Qed.

Lemma even_halves (p : nat) :
  (p / 2 = (p + 1) / 2)%nat ↔ (p mod 2 = 0)%nat.
Proof.
  pose proof (Nat.div_mod_eq p 2). pose proof (Nat.div_mod_eq (p + 1) 2).
  pose proof (Nat.mod_upper_bound p 2). pose proof (Nat.mod_upper_bound (p + 1) 2).
  lia.
Qed.

(** ** The decoder, for every arithmetic *)

Section Decoder.
Context {F : Type} `{Arith F}.

Lemma linspace_length (start stop : F) (num : nat) :
  length (linspace start stop num) = num.
Proof.
  unfold linspace, set_last.
  repeat case_decide; repeat case_match;
    rewrite ?length_insert, ?length_fmap, ?length_seq; reflexivity.
Qed.

(** The last point is [stop] itself, not a computed value: in every
    arithmetic, rounding or not, the axis ends exactly there. *)
Lemma linspace_last (start stop : F) (num : nat) :
  (1 < num)%nat → last (linspace start stop num) = Some stop.
Proof.
  intros Hnum. rewrite last_lookup, linspace_length.
  unfold linspace, set_last. rewrite (decide_True (P := (1 < num)%nat)) by lia.
  set (y := _ <$> _). assert (length y = num) as Hy.
  { unfold y. repeat case_decide; repeat case_match;
      rewrite ?length_fmap, ?length_seq; reflexivity. }
  rewrite Hy. apply list_lookup_insert_eq. lia.
Qed.

(** What [read_fid] computes once the file is found, the buffer is a
    whole number of words and the sampling frequency is not zero. *)
Lemma read_fid_frame (fs : gmap string string) (fid_path raw : string) (sw : F) :
  fs !! fid_path = Some raw →
  (String.length raw mod 4 = 0)%nat →
  feqb sw (of_nat 0) = false →
  read_fid fs fid_path sw =
    let fid_data := drop 259 (words raw) in
    let data_points := fdiv (of_nat (length fid_data)) (of_nat 2) in
    let time := fdiv (fsub data_points (of_nat 1)) sw in
    pd_DataFrame {| xaxis := linspace (of_nat 0) time (length fid_data / 2);
                    real := step2 fid_data;
                    imag := step2 (drop 1 fid_data) |}.
Proof.
  intros Hfile Hlen Hsw. unfold read_fid, frombuffer, py_div.
  rewrite Hfile. rewrite decide_True by exact Hlen.
  cbn. rewrite Hsw. reflexivity.
Qed.

(** A ragged buffer is refused before anything else is computed. *)
Lemma read_fid_ragged (fs : gmap string string) (fid_path raw : string) (sw : F) :
  fs !! fid_path = Some raw →
  (String.length raw mod 4 ≠ 0)%nat →
  read_fid fs fid_path sw =
    Raise (ValueError "buffer size must be a multiple of element size").
Proof.
  intros Hfile Hragged. unfold read_fid, frombuffer. rewrite Hfile.
  rewrite decide_False by exact Hragged. reflexivity.
Qed.

Lemma payload_length (raw : string) :
  length (drop 259 (words raw)) = (String.length raw / 4 - 259)%nat.
Proof. rewrite length_drop, words_length. reflexivity. Qed.

(** An even payload gives a frame. *)
Lemma read_fid_even (fs : gmap string string) (fid_path raw : string) (sw : F) :
  fs !! fid_path = Some raw →
  (String.length raw mod 4 = 0)%nat →
  feqb sw (of_nat 0) = false →
  ((String.length raw / 4 - 259) mod 2 = 0)%nat →
  let fid_data := drop 259 (words raw) in
  let data_points := fdiv (of_nat (length fid_data)) (of_nat 2) in
  let time := fdiv (fsub data_points (of_nat 1)) sw in
  read_fid fs fid_path sw =
    Ok {| xaxis := linspace (of_nat 0) time (length fid_data / 2);
          real := step2 fid_data;
          imag := step2 (drop 1 fid_data) |}.
Proof.
  intros Hfile Hlen Hsw Heven. cbv zeta.
  rewrite (read_fid_frame fs fid_path raw sw Hfile Hlen Hsw). cbv zeta.
  unfold pd_DataFrame. cbn [xaxis real imag].
  rewrite linspace_length, step2_length, step2_tail_length.
  rewrite decide_True; [reflexivity|].
  rewrite payload_length. apply even_halves in Heven. lia.
Qed.

(** An odd payload does not: the columns differ in length. *)
Lemma read_fid_odd (fs : gmap string string) (fid_path raw : string) (sw : F) :
  fs !! fid_path = Some raw →
  (String.length raw mod 4 = 0)%nat →
  feqb sw (of_nat 0) = false →
  ((String.length raw / 4 - 259) mod 2 ≠ 0)%nat →
  read_fid fs fid_path sw =
    Raise (ValueError "All arrays must be of the same length").
Proof.
  intros Hfile Hlen Hsw Hodd.
  rewrite (read_fid_frame fs fid_path raw sw Hfile Hlen Hsw). cbv zeta.
  unfold pd_DataFrame. cbn [xaxis real imag].
  rewrite linspace_length, step2_length, step2_tail_length.
  rewrite decide_False; [reflexivity|].
  rewrite payload_length. intros [Heq _]. apply Hodd, even_halves, Heq.
Qed.

End Decoder.

(** ** Buffers that are ragged, short or odd *)

(** C1, as the code has it: a buffer whose length is not a multiple of 4 is
    refused by [np.frombuffer] with a [ValueError]; a buffer of at most 259
    whole words (the empty one and the bare header included) is not
    refused: with a sampling frequency other than zero [read_fid] returns
    the frame with three empty columns. *)
Theorem read_fid_ragged_or_short {F : Type} `{Arith F}
    (fs : gmap string string) (fid_path raw : string) (sw : F) :
  fs !! fid_path = Some raw →
  ((String.length raw mod 4 ≠ 0)%nat →
   read_fid fs fid_path sw =
     Raise (ValueError "buffer size must be a multiple of element size"))
  ∧ ((String.length raw mod 4 = 0)%nat →
     (String.length raw / 4 ≤ 259)%nat →
     feqb sw (of_nat 0) = false →
     read_fid fs fid_path sw = Ok {| xaxis := []; real := []; imag := [] |}).
Proof.
  intros Hfile. split.
  - intros Hragged. exact (read_fid_ragged fs fid_path raw sw Hfile Hragged).
  - intros Hlen Hshort Hsw.
    rewrite (read_fid_frame fs fid_path raw sw Hfile Hlen Hsw). cbv zeta.
    assert (drop 259 (words raw) = []) as ->.
    { apply drop_ge. rewrite words_length. exact Hshort. }
    reflexivity.
Qed.

Lemma read_fid_ragged_or_short_witness :
  read_fid disk "ragged.fid" 20833%float =
    Raise (ValueError "buffer size must be a multiple of element size")
  ∧ read_fid disk "header.fid" 20833%float =
      Ok {| xaxis := []; real := []; imag := [] |}.
Proof.
  split.
  - apply (read_fid_ragged_or_short disk "ragged.fid" (zero_header +:+ "abc")).
    + vm_compute. reflexivity.
    + vm_compute. lia.
  - apply (read_fid_ragged_or_short disk "header.fid" zero_header).
    + vm_compute. reflexivity.
    + vm_compute. reflexivity.
    + vm_compute. lia.
    + vm_compute. reflexivity.
Defined.

(** C1 fails as stated: on the 0-byte buffer and on the buffer of exactly
    259 words [read_fid] raises nothing and returns an empty frame. *)
Lemma read_fid_no_payload_is_empty_frame :
  disk !! "empty.fid" = Some ""
  ∧ String.length zero_header = (4 * 259)%nat
  ∧ disk !! "header.fid" = Some zero_header
  ∧ read_fid disk "empty.fid" 20833%float =
      Ok {| xaxis := []; real := []; imag := [] |}
  ∧ read_fid disk "header.fid" 20833%float =
      Ok {| xaxis := []; real := []; imag := [] |}.
Proof. repeat split; vm_compute; reflexivity. Qed.

(** C2, as the code has it: on a buffer of 259 + 2k + 1 words and a
    sampling frequency other than zero the trailing word is not dropped;
    the real column gets k + 1 cells, the time axis and the imaginary
    column k, and building the frame raises [ValueError]. *)
Theorem read_fid_odd_payload {F : Type} `{Arith F}
    (fs : gmap string string) (fid_path raw : string) (sw : F) (k : nat) :
  fs !! fid_path = Some raw →
  String.length raw = (4 * (259 + 2 * k + 1))%nat →
  feqb sw (of_nat 0) = false →
  length (step2 (drop 259 (words raw))) = S k
  ∧ length (step2 (drop 1 (drop 259 (words raw)))) = k
  ∧ read_fid fs fid_path sw =
      Raise (ValueError "All arrays must be of the same length").
Proof.
  intros Hfile Hlen Hsw.
  assert (String.length raw / 4 = 259 + 2 * k + 1)%nat as Hwords.
  { rewrite Hlen, Nat.mul_comm. apply Nat.div_mul. lia. }
  assert (String.length raw mod 4 = 0)%nat as Hmod.
  { rewrite Hlen, Nat.mul_comm. apply Nat.Div0.mod_mul. }
  assert ((String.length raw / 4 - 259) = 1 + k * 2)%nat as Hpay by lia.
  split; [|split].
  - rewrite step2_length, payload_length, Hpay.
    replace (1 + k * 2 + 1)%nat with ((1 + k) * 2)%nat by lia.
    apply Nat.div_mul. lia.
  - rewrite step2_tail_length, payload_length, Hpay.
    rewrite Nat.div_add by lia. reflexivity.
  - apply (read_fid_odd fs fid_path raw sw Hfile Hmod Hsw).
    rewrite Hpay, Nat.Div0.mod_add. cbn. lia.
Qed.

Lemma read_fid_odd_payload_witness :
  read_fid disk "odd.fid" 2%float =
    Raise (ValueError "All arrays must be of the same length").
Proof.
  apply (read_fid_odd_payload disk "odd.fid"
           (zero_header +:+ payload_bytes (take 3 one_to_four)) 2%float 1).
  - vm_compute. reflexivity.
  - vm_compute. reflexivity.
  - vm_compute. reflexivity.
Defined.

(** C2 fails as stated: 259 + 2*1 + 1 words with a positive sampling
    frequency give no frame of length 1, they give an error. *)
Lemma read_fid_trailing_word_raises :
  disk !! "odd.fid" = Some (zero_header +:+ payload_bytes (take 3 one_to_four))
  ∧ String.length (zero_header +:+ payload_bytes (take 3 one_to_four))
    = (4 * (259 + 2 * 1 + 1))%nat
  ∧ PrimFloat.ltb 0 2 = true
  ∧ read_fid disk "odd.fid" 2%float =
      Raise (ValueError "All arrays must be of the same length")
  ∧ ¬ ∃ df, read_fid disk "odd.fid" 2%float = Ok df.
Proof.
  repeat split; try (vm_compute; reflexivity).
  intros [df Hdf]. vm_compute in Hdf. discriminate Hdf.
Qed.

(** ** The sampling frequency *)

(** C3, as the code has it: the sampling frequency is only ever used as a
    divisor.  When it is zero the division raises [ZeroDivisionError],
    but only once the buffer has been cut into words, so a buffer whose
    length is not a multiple of 4 raises [ValueError] instead; every
    other frequency, the negative ones included, is accepted, and an even
    payload is then decoded. *)
Theorem read_fid_rate {F : Type} `{Arith F}
    (fs : gmap string string) (fid_path raw : string) (sw : F) :
  fs !! fid_path = Some raw →
  (feqb sw (of_nat 0) = true →
     ((String.length raw mod 4 = 0)%nat →
      read_fid fs fid_path sw = Raise ZeroDivisionError)
     ∧ ((String.length raw mod 4 ≠ 0)%nat →
        read_fid fs fid_path sw =
          Raise (ValueError "buffer size must be a multiple of element size")))
  ∧ (feqb sw (of_nat 0) = false →
     (String.length raw mod 4 = 0)%nat →
     ((String.length raw / 4 - 259) mod 2 = 0)%nat →
     ∃ df, read_fid fs fid_path sw = Ok df).
Proof.
  intros Hfile. split; [intros Hzero; split|].
  - intros Hlen. unfold read_fid, frombuffer, py_div. rewrite Hfile.
    rewrite decide_True by exact Hlen. cbn. rewrite Hzero. reflexivity.
  - intros Hragged. exact (read_fid_ragged fs fid_path raw sw Hfile Hragged).
  - intros Hsw Hlen Heven. eexists.
    apply (read_fid_even fs fid_path raw sw Hfile Hlen Hsw Heven).
Qed.

Lemma read_fid_rate_witness :
  read_fid disk "scenario.fid" 0%float = Raise ZeroDivisionError
  ∧ read_fid disk "ragged.fid" 0%float =
      Raise (ValueError "buffer size must be a multiple of element size")
  ∧ ∃ df, read_fid disk "scenario.fid" (-2)%float = Ok df.
Proof.
  split; [|split].
  - apply (read_fid_rate disk "scenario.fid"
             (zero_header +:+ payload_bytes one_to_four) 0%float).
    + vm_compute. reflexivity.
    + vm_compute. reflexivity.
    + vm_compute. reflexivity.
  - apply (read_fid_rate disk "ragged.fid" (zero_header +:+ "abc") 0%float).
    + vm_compute. reflexivity.
    + vm_compute. reflexivity.
    + vm_compute. lia.
  - apply (read_fid_rate disk "scenario.fid"
             (zero_header +:+ payload_bytes one_to_four) (-2)%float).
    + vm_compute. reflexivity.
    + vm_compute. reflexivity.
    + vm_compute. reflexivity.
    + vm_compute. reflexivity.
Defined.

(** C3 fails as stated: a negative sampling frequency is not refused, the
    frame comes back with a time axis that runs backwards; and with a
    frequency of zero the error depends on the buffer. *)
Lemma read_fid_negative_rate_accepted :
  PrimFloat.leb (-2) 0 = true
  ∧ read_fid disk "scenario.fid" (-2)%float =
      Ok {| xaxis := [0; -0.5]%float;
            real := [0x3F800000; 0x40400000];
            imag := [0x40000000; 0x40800000] |}
  ∧ read_fid disk "ragged.fid" 0%float ≠ read_fid disk "scenario.fid" 0%float.
Proof.
  split; [|split]; try (vm_compute; reflexivity).
  vm_compute. discriminate.
Qed.

(** ** Shape of the frame *)

(** C6: whenever [read_fid] returns a frame, its three columns have the
    same length N, half the number of payload words. *)
Theorem read_fid_columns_same_length {F : Type} `{Arith F}
    (fs : gmap string string) (fid_path raw : string) (sw : F)
    (df : DataFrame F) :
  fs !! fid_path = Some raw →
  read_fid fs fid_path sw = Ok df →
  let N := ((String.length raw / 4 - 259) / 2)%nat in
  length (xaxis df) = N ∧ length (real df) = N ∧ length (imag df) = N.
Proof.
  intros Hfile Hok N. unfold read_fid, frombuffer, py_div in Hok.
  rewrite Hfile in Hok. case_decide as Hlen; [|discriminate Hok].
  cbn in Hok. destruct (feqb sw (of_nat 0)); [discriminate Hok|].
  cbn in Hok. unfold pd_DataFrame in Hok. cbn [xaxis real imag] in Hok.
  case_decide as Hcols; [|discriminate Hok].
  injection Hok as <-. cbn [xaxis real imag].
  destruct Hcols as [Hxr Hri].
  rewrite <- Hri, <- Hxr, linspace_length, payload_length. done.
Qed.

Lemma read_fid_columns_same_length_witness :
  length (xaxis scenario) = 2%nat ∧ length (real scenario) = 2%nat
  ∧ length (imag scenario) = 2%nat.
Proof.
  apply (read_fid_columns_same_length disk "scenario.fid"
           (zero_header +:+ payload_bytes one_to_four) 2%float scenario).
  - vm_compute. reflexivity.
  - vm_compute. reflexivity.
Defined.

(** C4: the first 259 words are skipped whatever they hold, and the rest
    is de-interleaved, real[k] = payload[2k] and imag[k] = payload[2k+1];
    on 1036 zero bytes followed by the float32 words 1.0, 2.0, 3.0, 4.0
    with a sampling frequency of 2.0 the time axis is [0.0, 0.5], the
    real column [1.0, 3.0] and the imaginary column [2.0, 4.0]. *)
Theorem read_fid_deinterleaves :
  (∀ (F : Type) (A : Arith F) (fs : gmap string string)
     (fid_path raw : string) (sw : F),
     fs !! fid_path = Some raw →
     (String.length raw mod 4 = 0)%nat →
     ((String.length raw / 4 - 259) mod 2 = 0)%nat →
     feqb sw (of_nat 0) = false →
     ∃ df, read_fid fs fid_path sw = Ok df
           ∧ ∀ k : nat,
               real df !! k = drop 259 (words raw) !! (2 * k)%nat
               ∧ imag df !! k = drop 259 (words raw) !! (2 * k + 1)%nat)
  ∧ (String.length zero_header = 1036%nat
     ∧ words zero_header = replicate 259 0
     ∧ f32_value <$> words (payload_bytes one_to_four) = [1; 2; 3; 4]%float
     ∧ disk !! "scenario.fid" = Some (zero_header +:+ payload_bytes one_to_four)
     ∧ ∃ df, read_fid disk "scenario.fid" 2%float = Ok df
             ∧ xaxis df = [0; 0.5]%float
             ∧ f32_value <$> real df = [1; 3]%float
             ∧ f32_value <$> imag df = [2; 4]%float).
Proof.
  split.
  - intros F A fs fid_path raw sw Hfile Hlen Heven Hsw. eexists. split.
    + apply (read_fid_even fs fid_path raw sw Hfile Hlen Hsw Heven).
    + intros k. cbn [real imag]. split.
      * apply step2_lookup.
      * apply step2_tail_lookup.
  - split; [vm_compute; reflexivity|].
    split; [vm_compute; reflexivity|].
    split; [vm_compute; reflexivity|].
    split; [vm_compute; reflexivity|].
    exists scenario.
    split; [vm_compute; reflexivity|].
    split; [reflexivity|].
    split; vm_compute; reflexivity.
Qed.

Lemma read_fid_deinterleaves_witness :
  ∃ df, read_fid disk "scenario.fid" 2%float = Ok df
        ∧ real df !! 1%nat = Some 0x40400000
        ∧ imag df !! 1%nat = Some 0x40800000.
Proof.
  destruct (proj1 read_fid_deinterleaves float binary64 disk "scenario.fid"
              (zero_header +:+ payload_bytes one_to_four) 2%float)
    as [df [Hdf Hcells]].
  - vm_compute. reflexivity.
  - vm_compute. reflexivity.
  - vm_compute. reflexivity.
  - vm_compute. reflexivity.
  - exists df. split; [exact Hdf|].
    destruct (Hcells 1%nat) as [-> ->]. split; vm_compute; reflexivity.
Defined.

(** ** The time axis in binary64 *)

Section Inner.
Context {F : Type} `{Arith F}.


End Inner.











(** ** Strings *)

Lemma append_cons (c : ascii) (s t : string) :
  String c s +:+ t = String c (s +:+ t).
Proof. reflexivity. Qed.

Lemma append_assoc (s t u : string) : (s +:+ t) +:+ u = s +:+ t +:+ u.
Proof.
  induction s as [|c s IH]; [reflexivity|].
  rewrite !append_cons, IH. reflexivity.
Qed.

Lemma append_empty_r (s : string) : s +:+ "" = s.
Proof.
  induction s as [|c s IH]; [reflexivity|].
  rewrite append_cons, IH. reflexivity.
Qed.

Lemma occurs_append (c : ascii) (s t : string) :
  occurs c (s +:+ t) = occurs c s || occurs c t.
Proof.
  induction s as [|c' s IH]; [reflexivity|].
  rewrite append_cons. cbn [occurs]. rewrite IH. apply orb_assoc.
Qed.

Lemma split_on_cons (sep : ascii) (text : string) :
  ∃ l ls, split_on sep text = l :: ls.
Proof.
  induction text as [|c text (l & ls & IH)]; simpl; [eauto|].
  destruct (Ascii.eqb c sep); [eauto|]. rewrite IH. eauto.
Qed.

(** Splitting finds a line that does not contain the separator. *)
Lemma split_on_line (sep : ascii) (l rest : string) :
  occurs sep l = false →
  split_on sep (l +:+ String sep rest) = l :: split_on sep rest.
Proof.
  induction l as [|c l IH]; intros Hfree.
  - change ("" +:+ String sep rest) with (String sep rest).
    cbn [split_on]. rewrite Ascii.eqb_refl. reflexivity.
  - rewrite append_cons. cbn [split_on occurs] in *.
    apply orb_false_iff in Hfree as [Hc Hl]. rewrite Hc, (IH Hl). reflexivity.
Qed.

Lemma split_on_free (sep : ascii) (l : string) :
  occurs sep l = false → split_on sep l = [l].
Proof.
  induction l as [|c l IH]; simpl; intros Hfree; [reflexivity|].
  apply orb_false_iff in Hfree as [Hc Hl]. rewrite Hc, (IH Hl). reflexivity.
Qed.

Lemma clean_tab (s : string) : clean s = true → occurs (ascii_of_nat 9) s = false.
Proof.
  unfold clean. intros Hs. apply andb_true_iff in Hs as [Ht _].
  apply negb_true_iff. exact Ht.
Qed.

Lemma clean_nl (s : string) : clean s = true → occurs (ascii_of_nat 10) s = false.
Proof.
  unfold clean. intros Hs. apply andb_true_iff in Hs as [_ Hn].
  apply negb_true_iff. exact Hn.
Qed.

(** ** Running the steps *)

Lemma run_app (fs : gmap string string) (s1 s2 : list io) :
  run fs (s1 ++ s2) = run (run fs s1) s2.
Proof. apply foldl_app. Qed.

Lemma run_appends (path : string) (steps : list io) :
  Forall (appends_to path) steps →
  ∀ (fs : gmap string string) (content : string),
    fs !! path = Some content →
    run fs steps !! path = Some (content +:+ concat_text (appended <$> steps)).
Proof.
  induction 1 as [|a steps Ha _ IH]; intros fs content Hfs.
  - cbn. rewrite append_empty_r. exact Hfs.
  - cbn [run foldl fmap list_fmap concat_text foldr].
    fold (run (exec fs a) steps). fold (concat_text (appended <$> steps)).
    destruct a as [p|p|p|p text]; cbn in Ha; try contradiction; subst p.
    + cbn [exec appended]. rewrite Hfs. rewrite (IH fs content Hfs). reflexivity.
    + cbn [exec appended]. rewrite <- append_assoc. apply IH.
      rewrite lookup_alter_eq, Hfs. reflexivity.
Qed.

(** ** The exported file *)

Section Exported.
Context {F : Type} `{Render F}.

Lemma to_csv_appends (data : DataFrame F) (path : string) :
  Forall (appends_to path) (to_csv data path).
Proof.
  unfold to_csv. constructor; [reflexivity|].
  apply Forall_fmap, Forall_true. intros row. reflexivity.
Qed.

Lemma body_appends (data : DataFrame F) (path : string) (freq : F) :
  Forall (appends_to path) (header_writes path freq ++ to_csv data path).
Proof.
  apply Forall_app. split; [|apply to_csv_appends].
  unfold header_writes. repeat constructor.
Qed.

Lemma to_csv_text (data : DataFrame F) (path : string) :
  concat_text (appended <$> to_csv data path)
  = unlines (csv_record <$> rows data).
Proof.
  unfold to_csv. cbn [fmap list_fmap appended concat_text foldr].
  change ("" +:+ ?s) with s.
  induction (rows data) as [|row rs IH]; [reflexivity|].
  cbn [fmap list_fmap appended foldr unlines].
  rewrite append_assoc. f_equal. f_equal. exact IH.
Qed.

(** Everything the steps after [open(fid_path, 'w')] add to the file. *)
Lemma body_text (data : DataFrame F) (path : string) (freq : F) :
  concat_text (appended <$> (header_writes path freq ++ to_csv data path))
  = spec_encode data {| frequency_mhz := freq; nucleus_label := "Unknown" |}.
Proof.
  unfold spec_encode, header_writes.
  cbn [app fmap list_fmap appended concat_text foldr unlines
       frequency_mhz nucleus_label].
  fold (concat_text (appended <$> to_csv data path)).
  fold (unlines (csv_record <$> rows data)).
  rewrite to_csv_text, !append_assoc. reflexivity.
Qed.

Lemma export_fid_steps_existing (fs : gmap string string) (data : DataFrame F)
    (path : string) (freq : F) :
  is_Some (fs !! path) →
  export_fid_steps fs data path freq
  = Remove path :: OpenW path :: header_writes path freq ++ to_csv data path.
Proof.
  intros Hsome. unfold export_fid_steps.
  rewrite decide_True by exact Hsome. reflexivity.
Qed.

(** The file after the first [j] of the steps that follow
    [open(fid_path, 'w')]: what these steps have written, whatever the
    file system held before. *)
Lemma run_opened (fs : gmap string string) (path : string) (steps : list io) :
  Forall (appends_to path) steps →
  run fs (OpenW path :: steps) !! path
  = Some (concat_text (appended <$> steps)).
Proof.
  intros Happ. cbn [run foldl exec]. fold (run (<[path:=""]> fs) steps).
  rewrite (run_appends path steps Happ _ "") by apply lookup_insert_eq.
  reflexivity.
Qed.

Lemma export_fid_content (fs : gmap string string) (data : DataFrame F)
    (path : string) (freq : F) :
  export_fid fs data path freq !! path
  = Some (spec_encode data {| frequency_mhz := freq;
                              nucleus_label := "Unknown" |}).
Proof.
  unfold export_fid, export_fid_steps. rewrite run_app.
  rewrite run_opened by apply body_appends.
  rewrite body_text. reflexivity.
Qed.

End Exported.

(** ** Reading the exported text back *)

Lemma lines_unlines (ls : list string) :
  Forall (λ l, occurs (ascii_of_nat 10) l = false) ls →
  lines (unlines ls) = ls ++ [""].
Proof.
  induction 1 as [|l ls Hl _ IH]; [reflexivity|].
  cbn [unlines foldr app]. fold (unlines ls).
  change (NL +:+ unlines ls) with (String (ascii_of_nat 10) (unlines ls)).
  unfold lines in *. rewrite (split_on_line _ l _ Hl), IH. reflexivity.
Qed.

Section Records.
Context {F : Type} `{Render F}.

Lemma rows_length (data : DataFrame F) (N : nat) :
  length (xaxis data) = N → length (real data) = N →
  length (imag data) = N → length (rows data) = N.
Proof.
  intros Hx Hr Hi. unfold rows.
  rewrite length_zip_with_l_eq.
  - rewrite length_zip_with_l_eq; lia.
  - rewrite length_zip_with_l_eq; lia.
Qed.

Lemma rows_lookup (data : DataFrame F) (k : nat) (x : F) (r i : Z) :
  xaxis data !! k = Some x → real data !! k = Some r →
  imag data !! k = Some i → rows data !! k = Some (x, r, i).
Proof.
  intros Hx Hr Hi. unfold rows.
  rewrite !lookup_zip_with, Hx, Hr, Hi. reflexivity.
Qed.

Lemma rows_clean (data : DataFrame F) :
  Forall (λ x, clean (cell64 x) = true) (xaxis data) →
  Forall (λ w, clean (cell32 w) = true) (real data) →
  Forall (λ w, clean (cell32 w) = true) (imag data) →
  Forall clean_row (rows data).
Proof.
  intros Hx Hr Hi. apply Forall_lookup. intros k [[x r] i] Hrow.
  unfold rows in Hrow.
  apply lookup_zip_with_Some in Hrow as (xr & i' & Heq & Hxr & Hi').
  apply lookup_zip_with_Some in Hxr as (x' & r' & Heq' & Hx' & Hr').
  simplify_eq. repeat split; cbn.
  - exact (Forall_lookup_1 _ _ _ _ Hx Hx').
  - exact (Forall_lookup_1 _ _ _ _ Hr Hr').
  - exact (Forall_lookup_1 _ _ _ _ Hi Hi').
Qed.

Lemma csv_record_one_line (row : F * Z * Z) :
  clean_row row → occurs (ascii_of_nat 10) (csv_record row) = false.
Proof.
  intros (Hx & Hr & Hi). unfold csv_record.
  rewrite !occurs_append, (clean_nl _ Hx), (clean_nl _ Hr), (clean_nl _ Hi).
  reflexivity.
Qed.

Lemma csv_record_fields (row : F * Z * Z) :
  clean_row row →
  fields (csv_record row) = [cell64 row.1.1; cell32 row.1.2; cell32 row.2].
Proof.
  intros (Hx & Hr & Hi). unfold csv_record, fields, TAB.
  rewrite !append_cons. change ("" +:+ ?s) with s.
  change ("" +:+ ?s) with s.
  rewrite (split_on_line _ _ _ (clean_tab _ Hx)).
  rewrite (split_on_line _ _ _ (clean_tab _ Hr)).
  rewrite (split_on_free _ _ (clean_tab _ Hi)). reflexivity.
Qed.

Lemma frequency_line_one_line (freq : F) :
  occurs (ascii_of_nat 10) (repr freq) = false →
  occurs (ascii_of_nat 10) ("Frequency" +:+ TAB +:+ repr freq) = false.
Proof. intros Hf. rewrite !occurs_append, Hf. reflexivity. Qed.

End Records.

(** ** The export claims *)

Lemma concat_text_app (xs ys : list string) :
  concat_text (xs ++ ys) = concat_text xs +:+ concat_text ys.
Proof.
  induction xs as [|x xs IH]; [reflexivity|].
  cbn [app concat_text foldr]. fold (concat_text (xs ++ ys)).
  fold (concat_text xs). rewrite IH, append_assoc. reflexivity.
Qed.

(** C8: whatever the destination held before, after [export_fid] it holds
    exactly the encoded document, the same as if the destination had not
    existed: nothing of the previous content is left. *)
Theorem export_fid_replaces {F : Type} `{Render F}
    (fs : gmap string string) (data : DataFrame F) (fid_path : string)
    (freq : F) (old : string) :
  fs !! fid_path = Some old →
  export_fid fs data fid_path freq !! fid_path
  = Some (spec_encode data {| frequency_mhz := freq;
                              nucleus_label := "Unknown" |})
  ∧ export_fid fs data fid_path freq !! fid_path
    = export_fid (delete fid_path fs) data fid_path freq !! fid_path.
Proof.
  intros _. rewrite !export_fid_content. split; reflexivity.
Qed.

Lemma export_fid_replaces_witness :
  export_fid disk scenario "old.txt" 56.25%float !! "old.txt"
  = Some ("Frequency" +:+ TAB +:+ "56.25" +:+ NL
          +:+ "Nucleus" +:+ TAB +:+ "Unknown" +:+ NL
          +:+ "0.0" +:+ TAB +:+ "1.0" +:+ TAB +:+ "2.0" +:+ NL
          +:+ "0.5" +:+ TAB +:+ "3.0" +:+ TAB +:+ "4.0" +:+ NL).
Proof.
  refine (proj1 (export_fid_replaces disk scenario "old.txt" 56.25%float
    "stale content that is longer than the new export will ever be, by far"
    _)).
  vm_compute. reflexivity.
Defined.

(** C9: the second line of every exported file is the constant
    "Nucleus<TAB>Unknown"; [export_fid] takes no label. *)
Theorem export_fid_nucleus_line {F : Type} `{Render F}
    (fs : gmap string string) (data : DataFrame F) (fid_path : string)
    (freq : F) :
  occurs (ascii_of_nat 10) (repr freq) = false →
  ∃ text, export_fid fs data fid_path freq !! fid_path = Some text
          ∧ lines text !! 1%nat = Some ("Nucleus" +:+ TAB +:+ "Unknown").
Proof.
  intros Hfreq. eexists. split; [apply export_fid_content|].
  unfold spec_encode, lines. cbn [unlines foldr frequency_mhz nucleus_label].
  change (NL +:+ ?s) with (String (ascii_of_nat 10) s).
  rewrite (split_on_line _ _ _ (frequency_line_one_line freq Hfreq)).
  cbn [lookup list_lookup].
  change (NL +:+ ?s) with (String (ascii_of_nat 10) s).
  rewrite split_on_line by reflexivity. reflexivity.
Qed.

Lemma export_fid_nucleus_line_witness :
  ∃ text, export_fid disk scenario "old.txt" 56.25%float !! "old.txt" = Some text
          ∧ lines text !! 1%nat = Some ("Nucleus" +:+ TAB +:+ "Unknown").
Proof.
  apply (export_fid_nucleus_line disk scenario "old.txt" 56.25%float).
  vm_compute. reflexivity.
Defined.

(** C7, as the code has it: the exported file starts with the line
    "Frequency<TAB><freq>", then the line "Nucleus<TAB>Unknown" (the
    label is this constant, not a field of the caller's record), then
    exactly N lines holding time_axis[k], real[k], imag[k] in that
    order, separated by tabs; every line ends with a newline and nothing
    follows the last sample. *)
Theorem export_fid_document {F : Type} `{Render F}
    (fs : gmap string string) (data : DataFrame F) (fid_path : string)
    (freq : F) (N : nat) :
  length (xaxis data) = N → length (real data) = N → length (imag data) = N →
  occurs (ascii_of_nat 10) (repr freq) = false →
  Forall (λ x, clean (cell64 x) = true) (xaxis data) →
  Forall (λ w, clean (cell32 w) = true) (real data) →
  Forall (λ w, clean (cell32 w) = true) (imag data) →
  ∃ text body,
    export_fid fs data fid_path freq !! fid_path = Some text
    ∧ lines text = ("Frequency" +:+ TAB +:+ repr freq)
                   :: ("Nucleus" +:+ TAB +:+ "Unknown") :: body ++ [""]
    ∧ length body = N
    ∧ ∀ (k : nat) (x : F) (r i : Z),
        xaxis data !! k = Some x → real data !! k = Some r →
        imag data !! k = Some i →
        ∃ line, body !! k = Some line
                ∧ fields line = [cell64 x; cell32 r; cell32 i].
Proof.
  intros Hx Hr Hi Hfreq Hcx Hcr Hci.
  pose proof (rows_clean data Hcx Hcr Hci) as Hrows.
  exists (spec_encode data {| frequency_mhz := freq;
                              nucleus_label := "Unknown" |}),
         (csv_record <$> rows data).
  split; [apply export_fid_content|]. split; [|split].
  - unfold spec_encode. cbn [frequency_mhz nucleus_label].
    rewrite lines_unlines; [reflexivity|].
    constructor; [exact (frequency_line_one_line freq Hfreq)|].
    constructor; [reflexivity|].
    apply Forall_fmap. eapply Forall_impl; [exact Hrows|].
    intros row Hrow. exact (csv_record_one_line row Hrow).
  - rewrite length_fmap. exact (rows_length data N Hx Hr Hi).
  - intros k x r i Hkx Hkr Hki. exists (csv_record (x, r, i)). split.
    + rewrite list_lookup_fmap, (rows_lookup data k x r i Hkx Hkr Hki).
      reflexivity.
    + apply (csv_record_fields (x, r, i)).
      exact (Forall_lookup_1 _ _ _ _ Hrows (rows_lookup data k x r i Hkx Hkr Hki)).
Qed.

Lemma export_fid_document_witness :
  ∃ text body,
    export_fid disk scenario "old.txt" 56.25%float !! "old.txt" = Some text
    ∧ lines text = ("Frequency" +:+ TAB +:+ "56.25")
                   :: ("Nucleus" +:+ TAB +:+ "Unknown") :: body ++ [""]
    ∧ length body = 2%nat
    ∧ ∀ (k : nat) (x : float) (r i : Z),
        xaxis scenario !! k = Some x → real scenario !! k = Some r →
        imag scenario !! k = Some i →
        ∃ line, body !! k = Some line
                ∧ fields line = [cell64 x; cell32 r; cell32 i].
Proof.
  assert (repr 56.25%float = "56.25") as <- by (vm_compute; reflexivity).
  apply (export_fid_document disk scenario "old.txt" 56.25%float 2).
  - reflexivity.
  - reflexivity.
  - reflexivity.
  - vm_compute. reflexivity.
  - repeat constructor.
  - repeat constructor.
  - repeat constructor.
Defined.

(** C7 fails as stated: a record whose nucleus label is "1H" cannot hand
    the label over, and the second line of the file is not
    "Nucleus<TAB>1H". *)
Lemma export_record_ignores_label :
  nucleus_label proton_record = "1H"
  ∧ ∃ text, export_record disk scenario "out.txt" proton_record !! "out.txt"
            = Some text
            ∧ lines text !! 1%nat = Some ("Nucleus" +:+ TAB +:+ "Unknown")
            ∧ lines text !! 1%nat
              ≠ Some ("Nucleus" +:+ TAB +:+ nucleus_label proton_record)
            ∧ text ≠ spec_encode scenario proton_record.
Proof.
  split; [reflexivity|]. eexists. split; [vm_compute; reflexivity|].
  split; [vm_compute; reflexivity|]. split; vm_compute; discriminate.
Qed.

(** ** Interrupted exports *)

Section Interrupted.
Context {F : Type} `{Render F}.

(** An export that stops after the deletion, the opening and [j] more
    steps leaves what these [j] steps wrote. *)
Lemma interrupted_after_open (fs : gmap string string) (data : DataFrame F)
    (path : string) (freq : F) (j : nat) :
  is_Some (fs !! path) →
  interrupted fs (export_fid_steps fs data path freq) (S (S j)) !! path
  = Some (concat_text
            (appended <$> take j (header_writes path freq ++ to_csv data path))).
Proof.
  intros Hsome. unfold interrupted.
  rewrite (export_fid_steps_existing fs data path freq Hsome).
  cbn [take]. change (run fs (Remove path :: ?steps))
    with (run (delete path fs) steps).
  apply run_opened, Forall_take, body_appends.
Qed.

Lemma interrupted_after_remove (fs : gmap string string) (data : DataFrame F)
    (path : string) (freq : F) :
  is_Some (fs !! path) →
  interrupted fs (export_fid_steps fs data path freq) 1 !! path = None.
Proof.
  intros Hsome. unfold interrupted.
  rewrite (export_fid_steps_existing fs data path freq Hsome).
  cbn [take run foldl exec]. apply lookup_delete_eq.
Qed.

Lemma written_prefix (data : DataFrame F) (path : string) (freq : F) (j : nat) :
  spec_encode data {| frequency_mhz := freq; nucleus_label := "Unknown" |}
  = concat_text
      (appended <$> take j (header_writes path freq ++ to_csv data path))
    +:+ concat_text
          (appended <$> drop j (header_writes path freq ++ to_csv data path)).
Proof.
  rewrite <- concat_text_app, <- fmap_app, take_drop. symmetry.
  apply body_text.
Qed.

End Interrupted.

(** C10: on an existing destination [export_fid] first deletes the file
    and then writes the new content; when a step after the deletion
    fails, the destination is absent or holds a prefix of the new
    content, and what it holds does not depend on the previous content,
    which is gone. *)
Theorem export_fid_not_atomic {F : Type} `{Render F}
    (fs : gmap string string) (data : DataFrame F) (fid_path : string)
    (freq : F) (old : string) (k : nat) :
  fs !! fid_path = Some old →
  let steps := export_fid_steps fs data fid_path freq in
  let new := spec_encode data {| frequency_mhz := freq;
                                 nucleus_label := "Unknown" |} in
  head steps = Some (Remove fid_path)
  ∧ interrupted fs steps 1 !! fid_path = None
  ∧ ((1 ≤ k < length steps)%nat →
     (interrupted fs steps k !! fid_path = None
      ∨ ∃ part rest, interrupted fs steps k !! fid_path = Some part
                     ∧ new = part +:+ rest)
     ∧ ∀ old',
         interrupted (<[fid_path := old']> fs)
           (export_fid_steps (<[fid_path := old']> fs) data fid_path freq) k
           !! fid_path
         = interrupted fs steps k !! fid_path).
Proof.
  intros Hold steps new.
  assert (is_Some (fs !! fid_path)) as Hsome by (rewrite Hold; eauto).
  split; [|split].
  - unfold steps. rewrite (export_fid_steps_existing _ _ _ _ Hsome). reflexivity.
  - apply interrupted_after_remove, Hsome.
  - intros [Hk _].
    assert (∀ old', is_Some (<[fid_path := old']> fs !! fid_path)) as Hsome'.
    { intros old'. rewrite lookup_insert_eq. eauto. }
    destruct k as [|[|j]]; [lia| |].
    + split.
      * left. apply interrupted_after_remove, Hsome.
      * intros old'. unfold steps.
        rewrite !interrupted_after_remove by auto. reflexivity.
    + split.
      * right. eexists _, _. split.
        -- apply interrupted_after_open, Hsome.
        -- apply (written_prefix data fid_path freq j).
      * intros old'. unfold steps.
        rewrite !interrupted_after_open by auto. reflexivity.
Qed.

Lemma export_fid_not_atomic_witness :
  interrupted disk (export_fid_steps disk scenario "old.txt" 56.25%float) 1
    !! "old.txt" = None
  ∧ ∃ part rest,
      interrupted disk (export_fid_steps disk scenario "old.txt" 56.25%float) 3
        !! "old.txt" = Some part
      ∧ spec_encode scenario {| frequency_mhz := 56.25%float;
                                nucleus_label := "Unknown" |} = part +:+ rest.
Proof.
  destruct (export_fid_not_atomic disk scenario "old.txt" 56.25%float
    "stale content that is longer than the new export will ever be, by far" 3)
    as (_ & Hgone & Hpart).
  - vm_compute. reflexivity.
  - split; [exact Hgone|].
    destruct Hpart as [[Hnone | Hsome] _].
    + vm_compute. lia.
    + vm_compute in Hnone. discriminate Hnone.
    + exact Hsome.
Defined.

(** ** More on the decoder *)

Lemma words_append (header payload : string) :
  (String.length header mod 4 = 0)%nat →
  words (header +:+ payload) = words header ++ words payload.
Proof.
  remember (String.length header) as n eqn:Hn.
  revert header Hn. induction n as [n IH] using lt_wf_ind. intros header Hn Hmod.
  destruct header as [|b0 [|b1 [|b2 [|b3 rest]]]]; cbn [String.length] in Hn;
    subst n; try reflexivity; try (cbn in Hmod; discriminate Hmod).
  rewrite !append_cons. cbn [words app]. f_equal.
  apply (IH (String.length rest)); [lia|reflexivity|].
  change (S (S (S (S (String.length rest)))))
    with (1 * 4 + String.length rest)%nat in Hmod.
  rewrite Nat.add_comm, Nat.Div0.mod_add in Hmod. exact Hmod.
Qed.

Lemma string_length_append (s t : string) :
  String.length (s +:+ t) = (String.length s + String.length t)%nat.
Proof.
  induction s as [|c s IH]; [reflexivity|].
  rewrite append_cons. cbn [String.length]. rewrite IH. reflexivity.
Qed.

Section DecoderMore.
Context {F : Type} `{Arith F}.

(** What a frame returned by [read_fid] is made of. *)
Lemma read_fid_ok_inv (fs : gmap string string) (fid_path raw : string)
    (sw : F) (df : DataFrame F) :
  fs !! fid_path = Some raw →
  read_fid fs fid_path sw = Ok df →
  (String.length raw mod 4 = 0)%nat
  ∧ feqb sw (of_nat 0) = false
  ∧ ((String.length raw / 4 - 259) mod 2 = 0)%nat
  ∧ real df = step2 (drop 259 (words raw))
  ∧ imag df = step2 (drop 1 (drop 259 (words raw)))
  ∧ length (xaxis df) = ((String.length raw / 4 - 259) / 2)%nat.
Proof.
  intros Hfile Hok.
  destruct (decide (String.length raw mod 4 = 0)%nat) as [Hlen|Hlen].
  2:{ rewrite (read_fid_ragged fs fid_path raw sw Hfile Hlen) in Hok.
      discriminate Hok. }
  destruct (feqb sw (of_nat 0)) eqn:Hsw.
  { unfold read_fid, frombuffer, py_div in Hok. rewrite Hfile in Hok.
    rewrite decide_True in Hok by exact Hlen. cbn in Hok.
    rewrite Hsw in Hok. discriminate Hok. }
  destruct (decide ((String.length raw / 4 - 259) mod 2 = 0)%nat) as [Hev|Hodd].
  2:{ rewrite (read_fid_odd fs fid_path raw sw Hfile Hlen Hsw Hodd) in Hok.
      discriminate Hok. }
  rewrite (read_fid_even fs fid_path raw sw Hfile Hlen Hsw Hev) in Hok.
  injection Hok as <-. cbn [xaxis real imag].
  rewrite linspace_length, payload_length. split_and!; done.
Qed.

End DecoderMore.

(** [read_fid] returns a frame exactly when the file exists, its length
    is a multiple of 4, the sampling frequency is not zero and the number
    of words after the first 259 is even. *)
Theorem read_fid_succeeds_iff {F : Type} `{Arith F}
    (fs : gmap string string) (fid_path : string) (sw : F) :
  (∃ df, read_fid fs fid_path sw = Ok df)
  ↔ ∃ raw, fs !! fid_path = Some raw
           ∧ (String.length raw mod 4 = 0)%nat
           ∧ feqb sw (of_nat 0) = false
           ∧ ((String.length raw / 4 - 259) mod 2 = 0)%nat.
Proof.
  split.
  - intros [df Hok]. destruct (fs !! fid_path) as [raw|] eqn:Hfile.
    + exists raw.
      destruct (read_fid_ok_inv fs fid_path raw sw df Hfile Hok)
        as (Hlen & Hsw & Hev & _).
      split_and!; done.
    + unfold read_fid in Hok. rewrite Hfile in Hok. discriminate Hok.
  - intros (raw & Hfile & Hlen & Hsw & Hev). eexists.
    apply (read_fid_even fs fid_path raw sw Hfile Hlen Hsw Hev).
Qed.

Lemma read_fid_succeeds_iff_witness :
  (∃ df, read_fid disk "scenario.fid" 2%float = Ok df)
  ∧ ¬ ∃ raw, disk !! "odd.fid" = Some raw
             ∧ (String.length raw mod 4 = 0)%nat
             ∧ feqb 2%float (of_nat 0) = false
             ∧ ((String.length raw / 4 - 259) mod 2 = 0)%nat.
Proof.
  split.
  - apply (read_fid_succeeds_iff disk "scenario.fid" 2%float).
    exists (zero_header +:+ payload_bytes one_to_four).
    repeat split; vm_compute; reflexivity.
  - intros Hvalid.
    apply (read_fid_succeeds_iff disk "odd.fid" 2%float) in Hvalid.
    destruct Hvalid as [df Hdf]. vm_compute in Hdf. discriminate Hdf.
Defined.

(** The first 1036 bytes are never looked at: two files that differ only
    there are decoded alike, to the same frame or to the same error. *)
Theorem read_fid_header_independent {F : Type} `{Arith F}
    (fs1 fs2 : gmap string string) (path1 path2 : string)
    (header1 header2 payload : string) (sw : F) :
  fs1 !! path1 = Some (header1 +:+ payload) →
  fs2 !! path2 = Some (header2 +:+ payload) →
  String.length header1 = 1036%nat →
  String.length header2 = 1036%nat →
  read_fid fs1 path1 sw = read_fid fs2 path2 sw.
Proof.
  intros Hfile1 Hfile2 Hh1 Hh2.
  assert (∀ header, String.length header = 1036%nat →
            (String.length (header +:+ payload) mod 4
             = String.length payload mod 4)%nat
            ∧ drop 259 (words (header +:+ payload)) = words payload)
    as Hcut.
  { intros header Hh. split.
    - rewrite string_length_append, Hh.
      change 1036%nat with (259 * 4)%nat.
      rewrite Nat.add_comm, Nat.Div0.mod_add. reflexivity.
    - rewrite words_append by (rewrite Hh; reflexivity).
      rewrite drop_app_length'; [reflexivity|].
      rewrite words_length, Hh. reflexivity. }
  destruct (Hcut header1 Hh1) as [Hm1 Hw1].
  destruct (Hcut header2 Hh2) as [Hm2 Hw2].
  unfold read_fid, frombuffer. rewrite Hfile1, Hfile2.
  destruct (decide (String.length payload mod 4 = 0)%nat) as [Hp|Hp].
  - rewrite !decide_True by congruence. cbn. rewrite Hw1, Hw2. reflexivity.
  - rewrite !decide_False by congruence. reflexivity.
Qed.

Lemma read_fid_header_independent_witness :
  read_fid other_disk "copy.fid" 2%float = read_fid disk "scenario.fid" 2%float.
Proof.
  apply (read_fid_header_independent other_disk disk "copy.fid" "scenario.fid"
           ones_header zero_header (payload_bytes one_to_four) 2%float).
  - vm_compute. reflexivity.
  - vm_compute. reflexivity.
  - vm_compute. reflexivity.
  - vm_compute. reflexivity.
Defined.

(** In every arithmetic, rounding or not, the last time of a frame of at
    least two samples is the duration [(data_points - 1) / sw] as it was
    computed, not a sum of steps. *)
Theorem read_fid_last_time {F : Type} `{Arith F}
    (fs : gmap string string) (fid_path raw : string) (sw : F) (N : nat) :
  fs !! fid_path = Some raw →
  String.length raw = (4 * (259 + 2 * N))%nat →
  (2 ≤ N)%nat →
  feqb sw (of_nat 0) = false →
  ∃ df, read_fid fs fid_path sw = Ok df
        ∧ last (xaxis df)
          = Some (fdiv (fsub (fdiv (of_nat (2 * N)) (of_nat 2)) (of_nat 1)) sw).
Proof.
  intros Hfile Hlen HN Hsw.
  assert (String.length raw / 4 = 259 + N * 2)%nat as Hwords.
  { rewrite Hlen, Nat.mul_comm, Nat.div_mul by lia. lia. }
  assert (String.length raw mod 4 = 0)%nat as Hmod.
  { rewrite Hlen, Nat.mul_comm. apply Nat.Div0.mod_mul. }
  assert (length (drop 259 (words raw)) = 2 * N)%nat as Hpay.
  { rewrite length_drop, words_length, Hwords. lia. }
  eexists. split.
  - apply (read_fid_even fs fid_path raw sw Hfile Hmod Hsw).
    rewrite Hwords. replace (259 + N * 2 - 259)%nat with (N * 2)%nat by lia.
    apply Nat.Div0.mod_mul.
  - cbn [xaxis]. rewrite Hpay. apply linspace_last.
    replace (2 * N)%nat with (N * 2)%nat by lia. rewrite Nat.div_mul; lia.
Qed.

Lemma read_fid_last_time_witness :
  ∃ df, read_fid disk "scenario.fid" 2%float = Ok df
        ∧ last (xaxis df) = Some 0.5%float.
Proof.
  assert (fdiv (fsub (fdiv (of_nat (2 * 2)) (of_nat 2)) (of_nat 1)) 2%float
          = 0.5%float) as <- by (vm_compute; reflexivity).
  apply (read_fid_last_time disk "scenario.fid"
           (zero_header +:+ payload_bytes one_to_four) 2%float 2).
  - vm_compute. reflexivity.
  - vm_compute. reflexivity.
  - lia.
  - vm_compute. reflexivity.
Defined.

(** ** More on the exported file *)

Lemma exec_other (fs : gmap string string) (a : io) (path : string) :
  target a ≠ path → exec fs a !! path = fs !! path.
Proof.
  destruct a as [p|p|p|p text]; cbn [target exec]; intros Hne.
  - apply lookup_delete_ne, Hne.
  - apply lookup_insert_ne, Hne.
  - destruct (fs !! p); [reflexivity|]. apply lookup_insert_ne, Hne.
  - apply lookup_alter_ne, Hne.
Qed.

Lemma run_other (steps : list io) (fid_path path : string) :
  Forall (λ a, target a = fid_path) steps →
  fid_path ≠ path →
  ∀ fs : gmap string string, run fs steps !! path = fs !! path.
Proof.
  intros Hsteps Hne. induction Hsteps as [|a steps Ha _ IH]; intros fs.
  - reflexivity.
  - cbn [run foldl]. fold (run (exec fs a) steps).
    rewrite IH. apply exec_other. congruence.
Qed.

Section ExportedMore.
Context {F : Type} `{Render F}.

Lemma export_fid_steps_target (fs : gmap string string) (data : DataFrame F)
    (fid_path : string) (freq : F) :
  Forall (λ a, target a = fid_path) (export_fid_steps fs data fid_path freq).
Proof.
  unfold export_fid_steps, header_writes, to_csv.
  apply Forall_app. split; [case_decide; repeat constructor|].
  repeat (constructor; [reflexivity|]).
  apply Forall_fmap, Forall_true. intros row. reflexivity.
Qed.

Lemma export_fid_other (fs : gmap string string) (data : DataFrame F)
    (fid_path path : string) (freq : F) :
  fid_path ≠ path → export_fid fs data fid_path freq !! path = fs !! path.
Proof.
  intros Hne. apply (run_other _ fid_path path); [|exact Hne].
  apply export_fid_steps_target.
Qed.

(** The lines of the exported document, when the rendered numbers hold
    no separator. *)
Lemma exported_lines (data : DataFrame F) (freq : F) :
  occurs (ascii_of_nat 10) (repr freq) = false →
  Forall clean_row (rows data) →
  lines (spec_encode data {| frequency_mhz := freq; nucleus_label := "Unknown" |})
  = ("Frequency" +:+ TAB +:+ repr freq)
    :: ("Nucleus" +:+ TAB +:+ "Unknown") :: (csv_record <$> rows data) ++ [""].
Proof.
  intros Hfreq Hrows. unfold spec_encode. cbn [frequency_mhz nucleus_label].
  rewrite lines_unlines; [reflexivity|].
  constructor; [exact (frequency_line_one_line freq Hfreq)|].
  constructor; [reflexivity|].
  apply Forall_fmap. eapply Forall_impl; [exact Hrows|].
  intros row Hrow. exact (csv_record_one_line row Hrow).
Qed.

End ExportedMore.

(** [export_fid] touches no file but its destination. *)
Theorem export_fid_leaves_others {F : Type} `{Render F}
    (fs : gmap string string) (data : DataFrame F) (fid_path path : string)
    (freq : F) :
  path ≠ fid_path →
  export_fid fs data fid_path freq !! path = fs !! path.
Proof. intros Hne. apply export_fid_other. congruence. Qed.

Lemma export_fid_leaves_others_witness :
  export_fid disk scenario "old.txt" 56.25%float !! "scenario.fid"
  = disk !! "scenario.fid".
Proof.
  apply (export_fid_leaves_others disk scenario "old.txt" "scenario.fid").
  discriminate.
Defined.

(** Two exports to the same destination leave what the second alone
    would: the file system is the same as if the first had not taken
    place, and exporting the same frame twice changes nothing more. *)
Theorem export_fid_last_wins {F : Type} `{Render F}
    (fs : gmap string string) (data1 data2 : DataFrame F) (fid_path : string)
    (freq1 freq2 : F) :
  export_fid (export_fid fs data1 fid_path freq1) data2 fid_path freq2
  = export_fid fs data2 fid_path freq2.
Proof.
  apply map_eq. intros path. destruct (decide (fid_path = path)) as [<-|Hne].
  - rewrite !export_fid_content. reflexivity.
  - rewrite !export_fid_other by exact Hne. reflexivity.
Qed.

(** Decoding a file and exporting the frame: the destination holds the
    two header lines and then one line per pair of payload words, whose
    second and third fields are the rendered words [2k] and [2k+1] of the
    payload. *)
Theorem read_fid_then_export_fid {F : Type} `{Arith F} `{Render F}
    (fs : gmap string string) (fid_path out_path raw : string) (sw freq : F)
    (df : DataFrame F) :
  fs !! fid_path = Some raw →
  read_fid fs fid_path sw = Ok df →
  occurs (ascii_of_nat 10) (repr freq) = false →
  Forall (λ x, clean (cell64 x) = true) (xaxis df) →
  Forall (λ w, clean (cell32 w) = true) (drop 259 (words raw)) →
  ∃ text body,
    export_fid fs df out_path freq !! out_path = Some text
    ∧ lines text = ("Frequency" +:+ TAB +:+ repr freq)
                   :: ("Nucleus" +:+ TAB +:+ "Unknown") :: body ++ [""]
    ∧ length body = ((String.length raw / 4 - 259) / 2)%nat
    ∧ ∀ (k : nat) (line : string),
        body !! k = Some line →
        ∃ t re im,
          xaxis df !! k = Some t
          ∧ drop 259 (words raw) !! (2 * k)%nat = Some re
          ∧ drop 259 (words raw) !! (2 * k + 1)%nat = Some im
          ∧ fields line = [cell64 t; cell32 re; cell32 im].
Proof.
  intros Hfile Hok Hfreq Hcx Hcw.
  destruct (read_fid_ok_inv fs fid_path raw sw df Hfile Hok)
    as (Hlen & Hsw & Hev & Hre & Him & Hx).
  assert (length (real df) = ((String.length raw / 4 - 259) / 2)%nat) as Hr.
  { rewrite Hre, step2_length, payload_length.
    symmetry. apply even_halves, Hev. }
  assert (length (imag df) = ((String.length raw / 4 - 259) / 2)%nat) as Hi.
  { rewrite Him, step2_tail_length, payload_length. reflexivity. }
  assert (Forall (λ w, clean (cell32 w) = true) (real df)) as Hcr.
  { apply Forall_lookup. intros k w Hw. rewrite Hre, step2_lookup in Hw.
    exact (Forall_lookup_1 _ _ _ _ Hcw Hw). }
  assert (Forall (λ w, clean (cell32 w) = true) (imag df)) as Hci.
  { apply Forall_lookup. intros k w Hw. rewrite Him, step2_tail_lookup in Hw.
    exact (Forall_lookup_1 _ _ _ _ Hcw Hw). }
  pose proof (rows_clean df Hcx Hcr Hci) as Hrows.
  exists (spec_encode df {| frequency_mhz := freq;
                            nucleus_label := "Unknown" |}),
         (csv_record <$> rows df).
  split; [apply export_fid_content|].
  split; [exact (exported_lines df freq Hfreq Hrows)|].
  split; [rewrite length_fmap; exact (rows_length df _ Hx Hr Hi)|].
  intros k line Hline. rewrite list_lookup_fmap in Hline.
  destruct (rows df !! k) as [[[t re] im]|] eqn:Hrow; [|discriminate Hline].
  injection Hline as <-. exists t, re, im.
  pose proof Hrow as Hcells. unfold rows in Hcells.
  apply lookup_zip_with_Some in Hcells as (xr & im' & Heq & Hxr & Him').
  apply lookup_zip_with_Some in Hxr as (t' & re' & Heq' & Ht' & Hre').
  simplify_eq. rewrite Hre, step2_lookup in Hre'.
  rewrite Him, step2_tail_lookup in Him'.
  split_and!; try done.
  apply (csv_record_fields (t', re', im')).
  exact (Forall_lookup_1 _ _ _ _ Hrows Hrow).
Qed.

Lemma read_fid_then_export_fid_witness :
  ∃ text body,
    export_fid disk scenario "out.txt" 56.25%float !! "out.txt" = Some text
    ∧ lines text = ("Frequency" +:+ TAB +:+ "56.25")
                   :: ("Nucleus" +:+ TAB +:+ "Unknown") :: body ++ [""]
    ∧ length body = 2%nat.
Proof.
  assert (repr 56.25%float = "56.25") as <- by (vm_compute; reflexivity).
  destruct (read_fid_then_export_fid disk "scenario.fid" "out.txt"
              (zero_header +:+ payload_bytes one_to_four) 2%float 56.25%float
              scenario)
    as (text & body & Htext & Hlines & Hlen & _).
  - vm_compute. reflexivity.
  - vm_compute. reflexivity.
  - vm_compute. reflexivity.
  - repeat constructor.
  - assert (drop 259 (words (zero_header +:+ payload_bytes one_to_four))
            = one_to_four) as -> by (vm_compute; reflexivity).
    repeat constructor.
  - exists text, body. split; [exact Htext|]. split; [exact Hlines|].
    exact Hlen.
Defined.

(** ** Splitting and joining paths *)

Lemma split_on_length (c : ascii) (s : string) :
  length (split_on c s) = S (count_char c s).
Proof.
  induction s as [|c' s IH]; [reflexivity|].
  cbn [split_on count_char]. destruct (Ascii.eqb c' c).
  - cbn [length]. rewrite IH. reflexivity.
  - destruct (split_on_cons c s) as (l & ls & Hs). rewrite Hs in *.
    cbn [length] in *. exact IH.
Qed.

Lemma split_on_parts_free (c : ascii) (s : string) :
  Forall (λ part, occurs c part = false) (split_on c s).
Proof.
  induction s as [|c' s IH]; [repeat constructor|].
  cbn [split_on]. destruct (Ascii.eqb c' c) eqn:Hc.
  - constructor; [reflexivity|exact IH].
  - destruct (split_on_cons c s) as (l & ls & Hs). rewrite Hs in *.
    inversion IH as [|? ? Hl Hls]; subst. constructor; [|exact Hls].
    cbn [occurs]. rewrite Hc, Hl. reflexivity.
Qed.

(** Splitting a joined path gives its components back. *)
Lemma split_on_join (c : ascii) (part : string) (parts : list string) :
  Forall (λ p, occurs c p = false) (part :: parts) →
  split_on c (join (String c "") (part :: parts)) = part :: parts.
Proof.
  revert part. induction parts as [|q parts IH]; intros part Hfree.
  - cbn [join]. apply split_on_free. exact (Forall_inv Hfree).
  - change (join (String c "") (part :: q :: parts))
      with (part +:+ String c "" +:+ join (String c "") (q :: parts)).
    rewrite append_cons. change ("" +:+ ?s) with s.
    rewrite (split_on_line c part _ (Forall_inv Hfree)).
    rewrite (IH q (Forall_inv_tail Hfree)). reflexivity.
Qed.

Lemma remove_char_free (c d : ascii) (s : string) :
  occurs c s = false → occurs c (remove_char d s) = false.
Proof.
  induction s as [|c' s IH]; [reflexivity|]. cbn [occurs remove_char].
  intros Hfree. apply orb_false_iff in Hfree as [Hc Hs].
  destruct (Ascii.eqb c' d); [exact (IH Hs)|].
  cbn [occurs]. rewrite Hc, (IH Hs). reflexivity.
Qed.

Lemma remove_char_gone (c : ascii) (s : string) :
  occurs c (remove_char c s) = false.
Proof.
  induction s as [|c' s IH]; [reflexivity|]. cbn [remove_char].
  destruct (Ascii.eqb c' c) eqn:Hc; [exact IH|].
  cbn [occurs]. rewrite Hc, IH. reflexivity.
Qed.

Lemma str_take_free (c : ascii) (n : nat) (s : string) :
  occurs c s = false → occurs c (str_take n s) = false.
Proof.
  revert n. induction s as [|c' s IH]; intros [|n] Hfree; try reflexivity.
  cbn [occurs str_take] in *. apply orb_false_iff in Hfree as [Hc Hs].
  rewrite Hc, (IH n Hs). reflexivity.
Qed.

Lemma str_take_append (s t : string) : str_take (String.length s) (s +:+ t) = s.
Proof.
  induction s as [|c s IH]; [destruct t; reflexivity|].
  rewrite append_cons. cbn [String.length str_take]. rewrite IH. reflexivity.
Qed.

(** Cutting a four-character extension leaves the stem. *)
Lemma chop4_extension (stem ext : string) :
  String.length ext = 4%nat → chop4 (stem +:+ ext) = stem.
Proof.
  intros Hext. unfold chop4. rewrite string_length_append, Hext.
  replace (String.length stem + 4 - 4)%nat with (String.length stem) by lia.
  apply str_take_append.
Qed.

Lemma join_free (c : ascii) (sep : string) (parts : list string) :
  occurs c sep = false →
  Forall (λ p, occurs c p = false) parts →
  occurs c (join sep parts) = false.
Proof.
  intros Hsep. induction 1 as [|p parts Hp Hparts IH]; [reflexivity|].
  destruct parts as [|q parts]; [exact Hp|].
  change (join sep (p :: q :: parts)) with (p +:+ sep +:+ join sep (q :: parts)).
  rewrite !occurs_append, Hp, Hsep, IH. reflexivity.
Qed.

(** ** build_file_name *)

(** A path with fewer than six components (fewer than five slashes) makes
    [build_file_name] raise [IndexError]; any other path gives a name. *)
Theorem build_file_name_index_error (src_path : string) :
  ((count_char "/" src_path < 5)%nat →
   build_file_name src_path = inl (IndexError "list index out of range"))
  ∧ ((5 ≤ count_char "/" src_path)%nat →
     ∃ name, build_file_name src_path = inr name).
Proof.
  unfold build_file_name. pose proof (split_on_length "/" src_path) as Hlen.
  split; intros Hcount.
  - rewrite (proj2 (lookup_ge_None (split_on "/" src_path) 5)) by lia.
    reflexivity.
  - destruct (lookup_lt_is_Some_2 (split_on "/" src_path) 5) as [part5 Hpart];
      [lia|].
    rewrite Hpart. eauto.
Qed.

Lemma build_file_name_index_error_witness :
  build_file_name "data/2024.01.17/avg3.fid"
    = inl (IndexError "list index out of range")
  ∧ ∃ name, build_file_name sabre_path = inr name.
Proof.
  split.
  - apply (build_file_name_index_error "data/2024.01.17/avg3.fid").
    vm_compute. lia.
  - apply (build_file_name_index_error sabre_path). vm_compute. lia.
Defined.

(** A name returned by [build_file_name] is a plain file name: it
    contains no slash, and it ends with ".fid". *)
Theorem build_file_name_plain (src_path name : string) :
  build_file_name src_path = inr name →
  occurs "/" name = false ∧ ∃ stem, name = stem +:+ ".fid".
Proof.
  unfold build_file_name. pose proof (split_on_parts_free "/" src_path) as Hfree.
  destruct (split_on "/" src_path !! 5%nat) as [part5|] eqn:Hpart;
    [|discriminate].
  intros [= <-]. split; [|eauto].
  rewrite occurs_append. apply orb_false_iff. split; [|reflexivity].
  apply join_free; [reflexivity|].
  apply Forall_app. split; [apply Forall_take, Forall_drop, Hfree|].
  apply Forall_cons. split.
  { apply remove_char_free. exact (Forall_lookup_1 _ _ _ _ Hfree Hpart). }
  apply Forall_app. split; [apply Forall_take, Forall_drop, Hfree|].
  apply Forall_singleton. apply str_take_free.
  destruct (last (split_on "/" src_path)) as [l|] eqn:Hlast; [|reflexivity].
  rewrite last_lookup in Hlast. exact (Forall_lookup_1 _ _ _ _ Hfree Hlast).
Qed.

Lemma build_file_name_plain_witness :
  occurs "/" "7-900uM-SABRE-90-20240117-5-average-avg3.fid" = false
  ∧ ∃ stem, "7-900uM-SABRE-90-20240117-5-average-avg3.fid" = stem +:+ ".fid".
Proof.
  apply (build_file_name_plain sabre_path). vm_compute. reflexivity.
Defined.

(** On a path of at least nine components whose file name has a
    four-character extension, the name is made of components 4 to 7, the
    dots of component 5 removed, and of the stem of the file name, joined
    by dashes, with the extension ".fid"; component 7 is part of it. *)
Theorem build_file_name_of_path
    (p0 p1 p2 p3 p4 p5 p6 p7 stem ext : string) (mid : list string) :
  Forall (λ p, occurs "/" p = false)
    ([p0; p1; p2; p3; p4; p5; p6; p7] ++ mid ++ [stem +:+ ext]) →
  String.length ext = 4%nat →
  build_file_name
    (join "/" ([p0; p1; p2; p3; p4; p5; p6; p7] ++ mid ++ [stem +:+ ext]))
  = inr (p4 +:+ "-" +:+ remove_char "." p5 +:+ "-" +:+ p6 +:+ "-" +:+ p7
         +:+ "-" +:+ stem +:+ ".fid").
Proof.
  intros Hfree Hext. unfold build_file_name. cbn [app] in *.
  rewrite (split_on_join "/" p0 _ Hfree).
  cbn [lookup list_lookup drop take app].
  assert (last (p0 :: p1 :: p2 :: p3 :: p4 :: p5 :: p6 :: p7
                :: mid ++ [stem +:+ ext]) = Some (stem +:+ ext)) as ->.
  { rewrite !app_comm_cons. apply last_snoc. }
  change (default "" (Some ?x)) with x.
  rewrite (chop4_extension stem ext Hext), take_0.
  cbn [app join]. rewrite !append_assoc. reflexivity.
Qed.

Lemma build_file_name_of_path_witness :
  build_file_name sabre_path
  = inr "7-900uM-SABRE-90-20240117-5-average-avg3.fid".
Proof.
  refine (build_file_name_of_path "D:" "study" "SABRE" "20240117"
            "7-900uM-SABRE-90" "2024.01.17" "5" "average" "avg3" ".fid"
            ["fid"] _ _).
  - repeat constructor.
  - reflexivity.
Defined.

(** The name does not depend on the first four components of the path:
    files that differ only there are given the same name. *)
Theorem build_file_name_ignores_root
    (a0 a1 a2 a3 b0 b1 b2 b3 part4 : string) (tail : list string) :
  Forall (λ p, occurs "/" p = false) [a0; a1; a2; a3] →
  Forall (λ p, occurs "/" p = false) [b0; b1; b2; b3] →
  Forall (λ p, occurs "/" p = false) (part4 :: tail) →
  build_file_name (join "/" ([a0; a1; a2; a3] ++ part4 :: tail))
  = build_file_name (join "/" ([b0; b1; b2; b3] ++ part4 :: tail)).
Proof.
  intros Ha Hb Ht. unfold build_file_name.
  pose proof (proj2 (Forall_app _ _ _) (conj Ha Ht)) as Hat.
  pose proof (proj2 (Forall_app _ _ _) (conj Hb Ht)) as Hbt.
  cbn [app] in *.
  rewrite (split_on_join "/" a0 _ Hat), (split_on_join "/" b0 _ Hbt).
  reflexivity.
Qed.

Lemma build_file_name_ignores_root_witness :
  build_file_name
    "E:/backup/old/20240117/7-900uM-SABRE-90/2024.01.17/5/average/fid/avg3.fid"
  = build_file_name sabre_path.
Proof.
  refine (build_file_name_ignores_root "E:" "backup" "old" "20240117"
            "D:" "study" "SABRE" "20240117" "7-900uM-SABRE-90"
            ["2024.01.17"; "5"; "average"; "fid"; "avg3.fid"] _ _ _).
  - repeat constructor.
  - repeat constructor.
  - repeat constructor.
Defined.

(** ** Directory walks *)

Lemma folder_ind (P : folder → Prop) :
  (∀ dirs files, Forall (λ entry, P entry.2) dirs → P (Folder dirs files)) →
  ∀ t, P t.
Proof.
  intros Hstep. fix IH 1. intros [dirs files]. apply Hstep.
  induction dirs as [|[name sub] dirs IHdirs]; constructor.
  - apply IH.
  - exact IHdirs.
Qed.

(** The paths [scan_folder] collects at one directory of the walk. *)
Lemma scan_folder_walk (t : folder) (folder_path : string) :
  scan_folder (Some t) folder_path true
  = flat_map (λ triple, os_path_join triple.1.1 <$> triple.1.2)
      (os_walk folder_path t).
Proof. reflexivity. Qed.

Lemma walk_paths_length (t : folder) :
  ∀ top, length (flat_map (λ triple, os_path_join triple.1.1 <$> triple.1.2)
                   (os_walk top t))
         = count_below t.
Proof.
  induction t as [dirs files IH] using folder_ind. intros top.
  cbn [os_walk flat_map count_below fst snd].
  rewrite length_app, length_fmap, length_fmap.
  induction IH as [|[name sub] dirs Hsub _ IHdirs]; [reflexivity|].
  cbn [flat_map foldr length snd] in *.
  rewrite flat_map_app, length_app, (Hsub (os_path_join top name)).
  lia.
Qed.

(** With [scan_sub] the scan lists every directory below the folder, at
    any depth, once: as many paths as there are directories below. *)
Theorem scan_folder_counts_all (t : folder) (folder_path : string) :
  length (scan_folder (Some t) folder_path true) = count_below t.
Proof. rewrite scan_folder_walk. apply walk_paths_length. Qed.

Lemma scan_folder_shallow (dirs : list (string * folder))
    (files : list string) (folder_path : string) :
  scan_folder (Some (Folder dirs files)) folder_path false
  = os_path_join folder_path <$> dirs.*1.
Proof.
  unfold scan_folder. cbn [os_walk take flat_map fst snd].
  rewrite take_0. cbn [flat_map]. apply app_nil_r.
Qed.

Lemma scan_folder_deep (dirs : list (string * folder))
    (files : list string) (folder_path : string) :
  scan_folder (Some (Folder dirs files)) folder_path true
  = (os_path_join folder_path <$> dirs.*1)
    ++ flat_map (λ triple, os_path_join triple.1.1 <$> triple.1.2)
         (flat_map (λ entry, let '(name, sub) := entry in
                             os_walk (os_path_join folder_path name) sub) dirs).
Proof. reflexivity. Qed.

(** Without [scan_sub] the scan gives the immediate sub-directories, in
    listing order, joined to the folder path; with [scan_sub] the same
    paths come first, the deeper ones after them. *)
Theorem scan_folder_top_first (dirs : list (string * folder))
    (files : list string) (folder_path : string) :
  scan_folder (Some (Folder dirs files)) folder_path false
  = os_path_join folder_path <$> dirs.*1
  ∧ ∃ deeper,
      scan_folder (Some (Folder dirs files)) folder_path true
      = scan_folder (Some (Folder dirs files)) folder_path false ++ deeper.
Proof.
  split; [apply scan_folder_shallow|].
  rewrite scan_folder_shallow, scan_folder_deep. eauto.
Qed.

Lemma os_path_join_prefix (a b : string) :
  occurs "/" b = false → ∃ rest, os_path_join a b = a +:+ rest.
Proof.
  intros Hb. unfold os_path_join.
  assert (String.prefix "/" b = false) as ->.
  { destruct b as [|c b]; [reflexivity|]. cbn [occurs] in Hb.
    apply orb_false_iff in Hb as [Hc _]. cbn [String.prefix].
    destruct (ascii_dec "/" c) as [<-|]; [discriminate Hc|reflexivity]. }
  repeat case_decide; subst; eauto.
Qed.

(** Every path the scan returns starts with the folder path it was
    given, when the names of the directories hold no slash. *)
Theorem scan_folder_under_root (t : folder) (folder_path : string)
    (scan_sub : bool) :
  named t →
  Forall (λ path, ∃ rest, path = folder_path +:+ rest)
    (scan_folder (Some t) folder_path scan_sub).
Proof.
  intros Hnamed.
  assert (Forall (λ path, ∃ rest, path = folder_path +:+ rest)
            (scan_folder (Some t) folder_path true)) as Hall.
  { rewrite scan_folder_walk. revert folder_path Hnamed.
    induction t as [dirs files IH] using folder_ind. intros top Hnamed.
    cbn [os_walk flat_map fst snd]. apply Forall_app. split.
    - clear IH. induction dirs as [|[name sub] dirs IHdirs]; [constructor|].
      cbn [named foldr] in Hnamed. destruct Hnamed as [(_ & Hfree & _) Hrest].
      cbn [fmap list_fmap fst]. constructor; [|exact (IHdirs Hrest)].
      exact (os_path_join_prefix top name Hfree).
    - induction IH as [|[name sub] dirs Hsub _ IHdirs]; [constructor|].
      cbn [named foldr] in Hnamed. destruct Hnamed as [(_ & Hfree & Hs) Hrest].
      cbn [flat_map]. rewrite flat_map_app. apply Forall_app. split.
      + destruct (os_path_join_prefix top name Hfree) as [rest Hjoin].
        eapply Forall_impl; [exact (Hsub (os_path_join top name) Hs)|].
        intros path [rest' ->]. rewrite Hjoin, append_assoc. eauto.
      + exact (IHdirs Hrest). }
  destruct scan_sub; [exact Hall|]. destruct t as [dirs files].
  rewrite scan_folder_deep in Hall. rewrite scan_folder_shallow.
  exact (proj1 (proj1 (Forall_app _ _ _) Hall)).
Qed.

Lemma scan_folder_under_root_witness :
  Forall (λ path, ∃ rest, path = "D:/study/SABRE" +:+ rest)
    (scan_folder (Some sabre_tree) "D:/study/SABRE" true).
Proof.
  apply (scan_folder_under_root sabre_tree "D:/study/SABRE" true).
  cbn. repeat split; discriminate.
Defined.
